(** * JustBot-Reloaded: message chains, listener registration and sending

    A shallow embedding of [src/apis/message_chain.py] (class
    [MessageChain]) and of [BotApplication.send_msg], [BotApplication.on]
    and the attachment decorators of [src/jbot/__init__.py], with
    [BotApplication.__init__], [set_config] and [MiraiAdapter.__init__]
    ([src/adapters/mirai/adapter.py]).

    Python state is passed explicitly through a small state-and-exception
    monad: a computation takes the current state and returns the new state
    together with either a raised exception or a result. *)

From Stdlib Require Import String List ZArith Bool Lia.
Import ListNotations.
Open Scope string_scope.

(** ** Python exceptions *)

Inductive exc : Type :=
| TypeError (msg : string)
| AttributeError (attr : string)
| IndexError
| Raised (code : nat).  (** any other exception, e.g. from the adapter *)

(** ** A state monad with Python exceptions *)

Definition M (S A : Type) : Type := S -> S * (exc + A).

Definition ret {S A} (a : A) : M S A := fun s => (s, inr a).
Definition raise {S A} (e : exc) : M S A := fun s => (s, inl e).
Definition bind {S A B} (c : M S A) (k : A -> M S B) : M S B :=
  fun s => match c s with
           | (s', inl e) => (s', inl e)
           | (s', inr a) => k a s'
           end.
Definition get {S} : M S S := fun s => (s, inr s).
Definition put {S} (s : S) : M S unit := fun _ => (s, inr tt).

Notation "x <- c ;; k" := (bind c (fun x => k))
  (at level 61, c at next level, right associativity).
Notation "c ;; k" := (bind c (fun _ => k))
  (at level 61, right associativity).

(** [try: body except Exception as e: handler e; raise] *)
Definition try_reraise {S A} (body : M S A) (handler : exc -> M S unit) : M S A :=
  fun s => match body s with
           | (s', inl e) => match handler e s' with
                            | (s'', inl e') => (s'', inl e')
                            | (s'', inr _) => (s'', inl e)
                            end
           | (s', inr a) => (s', inr a)
           end.

(** ** [MessageChain] (src/apis/message_chain.py) *)

Module MessageChain.
Section Chain.

(** [Element] lives outside [src/]: each element renders itself to wire
    code and to display text.  [element_iter] is what [for i in e] does on
    a single element object ([None]: the object is not iterable). *)
Variable Element : Type.
Variable element_to_code : Element -> string.
Variable element_as_display : Element -> string.
Variable element_iter : Element -> option (list Element).

(** The Python object passed as the [elements] parameter of [create]:
    a list of elements, or a single element. *)
Inductive pyseq : Type :=
| SeqList (l : list Element)
| SeqElem (e : Element).

Definition py_iter (s : pyseq) : option (list Element) :=
  match s with
  | SeqList l => Some l
  | SeqElem e => element_iter e
  end.

(** [__new__] and [create] write class attributes ([cls.x = ...]), so the
    state of every chain is the state of the class.  An attribute that was
    never assigned is [None]. *)
Record cls_state : Type := {
  elements : option pyseq;
  _strings : option (list string);
  _result : option string
}.

Definition initial : cls_state :=
  {| elements := None; _strings := None; _result := None |}.

(** [__new__] returns [cls]: the only object a constructor ever yields. *)
Inductive chain : Type := MessageChainClass.

(** [def __new__(cls, strings)]: [cls.elements: List[Element]] is an
    annotation only and assigns nothing; [cls._result] starts at [''] and
    each string is appended in turn. *)
Definition new (strings : list string) : M cls_state chain :=
  fun st =>
    ({| elements := elements st;
        _strings := Some strings;
        _result := Some (fold_left (fun acc i => acc ++ i) strings "") |},
     inr MessageChainClass).

Definition set_elements (e : pyseq) (st : cls_state) : cls_state :=
  {| elements := Some e; _strings := _strings st; _result := _result st |}.

(** [def create(cls, elements)]: store [elements], render each element
    in order, then call [cls(strings)]. *)
Definition create (elements : pyseq) : M cls_state chain :=
  st <- get ;;
  put (set_elements elements st) ;;
  match py_iter elements with
  | None => raise (TypeError "object is not iterable")
  | Some l => new (map element_to_code l)
  end.

(** A Python call [MessageChain.create( *args)]: [create] takes exactly one
    positional parameter besides [cls]. *)
Definition create_call (args : list pyseq) : M cls_state chain :=
  match args with
  | [a] => create a
  | [] => raise (TypeError "create() missing 1 required positional argument")
  | _ => raise (TypeError "create() takes 2 positional arguments")
  end.

(** [to_code] is a classmethod: it reads [cls._result] whatever object it
    is called on. *)
Definition to_code (self : chain) : M cls_state string :=
  fun st => match _result st with
            | Some r => (st, inr r)
            | None => (st, inl (AttributeError "_result"))
            end.

(** [''.join([element.as_display() for element in cls.elements])] *)
Definition as_display (self : chain) : M cls_state string :=
  fun st => match elements st with
            | None => (st, inl (AttributeError "elements"))
            | Some s =>
                match py_iter s with
                | None => (st, inl (TypeError "object is not iterable"))
                | Some l => (st, inr (String.concat "" (map element_as_display l)))
                end
            end.

End Chain.

Arguments elements {Element}.
Arguments _strings {Element}.
Arguments _result {Element}.

End MessageChain.

(** ** Loggers *)

Inductive logger : Type := AppLogger | AdapterLogger.
Inductive level : Type := Info | Warning | Error.

(** The texts are English renderings of the source's Chinese messages. *)
Record log_entry : Type := {
  log_by : logger;
  log_level : level;
  log_text : string
}.

Definition exc_str (e : exc) : string :=
  match e with
  | TypeError m => m
  | AttributeError a => a
  | IndexError => "list index out of range"
  | Raised _ => "adapter error"
  end.

(** ** Listeners and the listener manager *)

Module ListenerManager.
Section LM.

Variable EventType : Type.
Variable Value : Type.

(** A handler, compared by identity; [h_is_coroutine] is
    [asyncio.iscoroutinefunction(target)]. *)
Record handler : Type := {
  h_id : nat;
  h_is_coroutine : bool
}.

Inductive attach_kind : Type := AMatcher | AParamConvert | ARole | ANlp.

(** Modelled from the spec: the [Listener] class (not under [src/]): one
    event type, one handler, and the optional attachments, all unset when
    the listener is built. *)
Record listener : Type := {
  l_event : EventType;
  l_handler : handler;
  l_priority : Z;
  l_matcher : option Value;
  l_param_convert : option Value;
  l_role : option Value;
  l_nlp : option Value
}.

Definition Listener (e : EventType) (target : handler) (priority : Z) : listener :=
  {| l_event := e; l_handler := target; l_priority := priority;
     l_matcher := None; l_param_convert := None; l_role := None; l_nlp := None |}.

(** Modelled from the spec: the registry order of [ListenerManager]
    (not under [src/]): ascending priority, a new listener placed after
    every listener of equal priority. *)
Fixpoint insert_by_priority (l : listener) (reg : list listener) : list listener :=
  match reg with
  | [] => [l]
  | x :: r => if (l_priority l <? l_priority x)%Z then l :: x :: r
              else x :: insert_by_priority l r
  end.

(** Modelled from the spec: [ListenerManager.join] rejects a priority
    [<= 0] and otherwise inserts the listener. *)
Definition join (l : listener) (reg : list listener) : list listener * bool :=
  if (l_priority l <=? 0)%Z then (reg, false) else (insert_by_priority l reg, true).

Definition set_attachment (k : attach_kind) (v : Value) (l : listener) : listener :=
  match k with
  | AMatcher =>
      {| l_event := l_event l; l_handler := l_handler l; l_priority := l_priority l;
         l_matcher := Some v; l_param_convert := l_param_convert l;
         l_role := l_role l; l_nlp := l_nlp l |}
  | AParamConvert =>
      {| l_event := l_event l; l_handler := l_handler l; l_priority := l_priority l;
         l_matcher := l_matcher l; l_param_convert := Some v;
         l_role := l_role l; l_nlp := l_nlp l |}
  | ARole =>
      {| l_event := l_event l; l_handler := l_handler l; l_priority := l_priority l;
         l_matcher := l_matcher l; l_param_convert := l_param_convert l;
         l_role := Some v; l_nlp := l_nlp l |}
  | ANlp =>
      {| l_event := l_event l; l_handler := l_handler l; l_priority := l_priority l;
         l_matcher := l_matcher l; l_param_convert := l_param_convert l;
         l_role := l_role l; l_nlp := Some v |}
  end.

Definition is_listener_of (target : handler) (l : listener) : bool :=
  Nat.eqb (h_id (l_handler l)) (h_id target).

(** Modelled from the spec: [set_matcher], [set_param_convert], [set_role]
    and [set_nlp] of [ListenerManager] (not under [src/]): look up the
    listeners whose handler is [target]; none found is a failure and
    nothing changes, otherwise their attachment is set in place. *)
Definition set (k : attach_kind) (target : handler) (v : Value) (reg : list listener)
  : list listener * bool :=
  if existsb (is_listener_of target) reg
  then (map (fun l => if is_listener_of target l then set_attachment k v l else l) reg, true)
  else (reg, false).

End LM.
End ListenerManager.

(** ** [BotApplication] (src/jbot/__init__.py) *)

Module Bot.
Import MessageChain ListenerManager.
Section App.

Variable Element : Type.
Variable element_to_code : Element -> string.
Variable element_as_display : Element -> string.
Variable element_iter : Element -> option (list Element).
(** [type(e) in Element.__subclasses__() or type(e) is Element]: only
    direct subclasses of [Element] pass this test. *)
Variable element_type_listed : Element -> bool.

Variable Target : Type.
Variable EventType : Type.

(** Python objects built by code outside [src/]. *)
Variable Matcher ElementType PyType Role Float : Type.
Variable CommandMatcher KeywordMatcher : list string -> bool -> list ElementType -> Matcher.

(** [self.adapter.send_message(target, chain)]: the adapter reads the
    chain, i.e. the class state; [Some e] when it raises [e]. *)
Variable adapter_send : Target -> cls_state Element -> option exc.

(** The [Plain] class found by scanning [Element.__subclasses__()] for the
    adapter's name; [None] when the scan finds nothing ([...][0][0] then
    raises [IndexError]). *)
Variable plain_class : option (string -> Element).

(** The attachment values the decorators build. *)
Inductive value : Type :=
| VMatcher (m : Matcher)                                  (** matcher objects *)
| VType (t : PyType)                                       (** [param_convert] *)
| VRole (role : list Role) (todo : option handler)         (** [{'role': .., 'todo': ..}] *)
| VNlp (c : Float) (keywords : list string) (params : list (string * string)).

Record world : Type := {
  w_mc : cls_state Element;                      (** [MessageChain]'s class attributes *)
  w_log : list log_entry;
  w_sent : list (Target * cls_state Element);    (** calls of [adapter.send_message] *)
  w_joins : list (EventType * handler * Z);      (** calls of [listener_manager.join] *)
  w_registry : list (listener EventType value)   (** [ListenerManager]'s state *)
}.

Definition with_mc (st : cls_state Element) (w : world) : world :=
  {| w_mc := st; w_log := w_log w; w_sent := w_sent w;
     w_joins := w_joins w; w_registry := w_registry w |}.

Definition log (by_ : logger) (lv : level) (text : string) : M world unit :=
  fun w => ({| w_mc := w_mc w; w_log := w_log w ++ [{| log_by := by_; log_level := lv; log_text := text |}];
               w_sent := w_sent w; w_joins := w_joins w; w_registry := w_registry w |}, inr tt).

(** Run a [MessageChain] class operation inside the application. *)
Definition on_mc {A} (c : M (cls_state Element) A) : M world A :=
  fun w => let (st', r) := c (w_mc w) in (with_mc st' w, r).

Definition mc_create (s : pyseq Element) : M world chain :=
  on_mc (create Element element_to_code element_iter s).

Definition mc_create_call (args : list (pyseq Element)) : M world chain :=
  on_mc (create_call Element element_to_code element_iter args).

(** *** [send_msg] *)

(** A [message] argument, by its runtime value.  The constructors of
    [MessageChain] return the class itself, so a chain argument is the
    class object, of type [type]. *)
Inductive message : Type :=
| MsgChainObj
| MsgStr (s : string)
| MsgElem (e : Element)
| MsgList (l : list Element)
| MsgTuple (l : list Element)
| MsgOther.

(** [send = lambda chain: self.adapter.send_message(target, chain)] *)
Definition send (target : Target) (c : chain) : M world unit :=
  fun w =>
    let w' := {| w_mc := w_mc w; w_log := w_log w; w_sent := w_sent w ++ [(target, w_mc w)];
                 w_joins := w_joins w; w_registry := w_registry w |} in
    match adapter_send target (w_mc w) with
    | Some e => (w', inl e)
    | None => (w', inr tt)
    end.

Definition error : M world unit :=
  log AdapterLogger Warning "cannot send message: parameter `message` has a wrong type!".

(** The body of the [try] block.  Branches, in source order:
    [t is MessageChain] (never taken: a chain is the class, of type
    [type]), [t is str], [is_element], [is_list], and [error()]. *)
Definition send_msg_body (target : Target) (message : message) : M world unit :=
  match message with
  | MsgStr s =>
      match plain_class with
      | None => raise IndexError
      | Some plain => c <- mc_create (SeqElem Element (plain s)) ;; send target c
      end
  | MsgElem e =>
      if element_type_listed e
      then c <- mc_create (SeqElem Element e) ;; send target c
      else error
  | MsgList l | MsgTuple l =>
      c <- mc_create_call (map (SeqElem Element) l) ;; send target c
  | MsgChainObj | MsgOther => error
  end.

Definition send_msg (target : Target) (message : message) : M world unit :=
  try_reraise (send_msg_body target message)
    (fun e => log AdapterLogger Error ("cannot send message: `" ++ exc_str e ++ "`")).

(** *** [on] and the attachment decorators *)

(** The [event] argument of [on]: one event type, a list or a tuple. *)
Inductive event_arg : Type :=
| EvType (e : EventType)
| EvList (l : list EventType)
| EvTuple (l : list EventType).

(** The [priority] argument: an [int], or a value of another type. *)
Inductive py_priority : Type :=
| PInt (z : Z)
| PNotInt.

(** A decorator: a Python function from a handler to a handler. *)
Definition decorator : Type := handler -> M world handler.

(** Calling the value a decorator expression evaluated to; [None] is not
    callable. *)
Definition apply_decorator (d : option decorator) (target : handler) : M world handler :=
  match d with
  | Some f => f target
  | None => raise (TypeError "'NoneType' object is not callable")
  end.

(** [self.listener_manager.join(listener=Listener(e, target), priority=priority)] *)
Definition lm_join (e : EventType) (target : handler) (priority : Z) : M world unit :=
  fun w =>
    let reg' := fst (join EventType value (Listener EventType value e target priority) (w_registry w)) in
    ({| w_mc := w_mc w; w_log := w_log w; w_sent := w_sent w;
        w_joins := w_joins w ++ [(e, target, priority)]; w_registry := reg' |}, inr tt).

(** [for e in ev: body(e)] *)
Fixpoint py_for {A} (body : A -> M world unit) (l : list A) : M world unit :=
  match l with
  | [] => ret tt
  | x :: r => body x ;; py_for body r
  end.

(** The [wrapper] returned by [on] for a positive [int] priority. *)
Definition on_wrapper (event : event_arg) (priority : Z) (target : handler) : M world handler :=
  (if h_is_coroutine target then
     let ev := match event with
               | EvList [e] => EvType e
               | _ => event
               end in
     let join_ := fun e => lm_join e target priority in
     match ev with
     | EvType e => log AppLogger Info "registered listener (multiple events)" ;; join_ e
     | EvList l | EvTuple l => log AppLogger Info "registered listener" ;; py_for join_ l
     end
   else log AppLogger Warning "cannot register listener: function ignored, it must be async!") ;;
  ret target.

(** [def on(self, event, priority=5)]: the last branch logs and falls off
    the end of the function, which returns [None]. *)
Definition on (event : event_arg) (priority : py_priority) : M world (option decorator) :=
  match priority with
  | PNotInt =>
      log AppLogger Error "cannot register listener: wrong type of priority!" ;;
      ret (Some (fun target => ret target))
  | PInt p =>
      if (p >? 0)%Z then ret (Some (on_wrapper event p))
      else log AppLogger Error "cannot register listener: priority cannot be less than 0!" ;;
           ret None
  end.

(** [self.listener_manager.set_matcher(target, value)] and its siblings *)
Definition lm_set (k : attach_kind) (target : handler) (v : value) : M world bool :=
  fun w =>
    let (reg', flag) := set EventType value k target v (w_registry w) in
    ({| w_mc := w_mc w; w_log := w_log w; w_sent := w_sent w;
        w_joins := w_joins w; w_registry := reg' |}, inr flag).

(** [def __set_decorator(self, value, type, desc)] *)
Definition set_decorator (v : value) (k : attach_kind) (desc : string) : decorator :=
  fun target =>
    flag <- lm_set k target v ;;
    (if negb flag
     then log AppLogger Warning ("cannot set " ++ desc ++ ": function is not a listener, check the arguments and the decorator order!")
     else ret tt) ;;
    ret target.

Definition command (cmd : list string) (match_all_width : bool) (ignore : list ElementType) : decorator :=
  set_decorator (VMatcher (CommandMatcher cmd match_all_width ignore)) AMatcher "message matcher".

Definition keyword (kw : list string) (match_all_width : bool) (ignore : list ElementType) : decorator :=
  set_decorator (VMatcher (KeywordMatcher kw match_all_width ignore)) AMatcher "message matcher".

Definition matcher (m : Matcher) : decorator :=
  set_decorator (VMatcher m) AMatcher "message matcher".

Definition param_convert (t : PyType) : decorator :=
  set_decorator (VType t) AParamConvert "parameter conversion type".

Definition role (r : list Role) (todo : option handler) : decorator :=
  set_decorator (VRole r todo) ARole "role group".

Definition nlp (c : Float) (keywords : list string) (params : list (string * string)) : decorator :=
  set_decorator (VNlp c keywords params) ANlp "natural language processing".

(** Each attachment decorator of [BotApplication], by the call that
    produced it. *)
Inductive attachment_call : Type :=
| CallCommand (cmd : list string) (match_all_width : bool) (ignore : list ElementType)
| CallKeyword (kw : list string) (match_all_width : bool) (ignore : list ElementType)
| CallMatcher (m : Matcher)
| CallParamConvert (t : PyType)
| CallRole (r : list Role) (todo : option handler)
| CallNlp (c : Float) (keywords : list string) (params : list (string * string)).

Definition attachment_decorator (call : attachment_call) : decorator :=
  match call with
  | CallCommand cmd maw ig => command cmd maw ig
  | CallKeyword kw maw ig => keyword kw maw ig
  | CallMatcher m => matcher m
  | CallParamConvert t => param_convert t
  | CallRole r todo => role r todo
  | CallNlp c kws ps => nlp c kws ps
  end.

End App.

Arguments w_mc {Element Target EventType Matcher PyType Role Float}.
Arguments w_log {Element Target EventType Matcher PyType Role Float}.
Arguments w_sent {Element Target EventType Matcher PyType Role Float}.
Arguments w_joins {Element Target EventType Matcher PyType Role Float}.
Arguments w_registry {Element Target EventType Matcher PyType Role Float}.
Arguments on {Element Target EventType Matcher PyType Role Float}.
Arguments apply_decorator {Element Target EventType Matcher PyType Role Float}.
Arguments on_wrapper {Element Target EventType Matcher PyType Role Float}.
Arguments lm_join {Element Target EventType Matcher PyType Role Float}.
Arguments log {Element Target EventType Matcher PyType Role Float}.
Arguments set_decorator {Element Target EventType Matcher PyType Role Float}.
Arguments lm_set {Element Target EventType Matcher PyType Role Float}.
Arguments Build_world {Element Target EventType Matcher PyType Role Float} _ _ _ _ _.
Arguments EvType {EventType}.
Arguments EvList {EventType}.
Arguments EvTuple {EventType}.
Arguments MsgChainObj {Element}.
Arguments MsgStr {Element}.
Arguments MsgElem {Element}.
Arguments MsgList {Element}.
Arguments MsgTuple {Element}.
Arguments MsgOther {Element}.
Arguments attachment_decorator {Element Target EventType Matcher ElementType PyType Role Float} _ _ _ _ _.
Arguments py_for {Element Target EventType Matcher PyType Role Float} {A} _ _ _.

End Bot.

(** ** Object attributes, [set_config] and [BotApplication.__init__] *)

(** Exceptions of the start-up code. *)
Inductive py_error : Type :=
| NameError (name : string)
| ValueError (msg : string)
| StartupFailure (code : nat).  (** an exception raised by adapter code *)

Module Attrs.
Section Attrs.

Variable V : Type.

(** An object's [__dict__] in insertion order. *)
Definition attrs : Type := list (string * V).

(** [obj.k = v]: replace the value of an existing key in place, or add
    the key at the end. *)
Fixpoint setattr (k : string) (v : V) (d : attrs) : attrs :=
  match d with
  | [] => [(k, v)]
  | (k', v') :: r => if String.eqb k k' then (k, v) :: r else (k', v') :: setattr k v r
  end.

Fixpoint getattr (k : string) (d : attrs) : option V :=
  match d with
  | [] => None
  | (k', v') :: r => if String.eqb k k' then Some v' else getattr k r
  end.

End Attrs.
Arguments setattr {V}.
Arguments getattr {V}.
End Attrs.

Module AppInit.
Import Attrs.
Section Init.

(** The adapter and the objects it hands out live outside this file. *)
Variable Adapter Utils MessageHandler : Type.

(** Python values stored as attributes. *)
Inductive pyval : Type :=
| PAdapter (a : Adapter)
| PStr (s : string)
| PNone
| PCoroutine (result : pyval)   (** a coroutine object and what it returns *)
| PListenerManager              (** a fresh [ListenerManager()] *)
| PUtils (u : Utils)
| PMessageHandler (h : MessageHandler)
| PLogger (name : string)
| PApplication.                 (** the [BotApplication] being built *)

Variable adapter_nick_name : Adapter -> pyval.
Variable adapter_utils : Adapter -> Utils.
Variable adapter_message_handler : Adapter -> MessageHandler.
(** [asyncio.run(self.adapter.check())]: [Some e] when [check] raises. *)
Variable adapter_check : Adapter -> option py_error.

Definition VERSION : string := "2.2.0".

(** [BotApplication.coroutine], i.e. [asyncio.run]: anything but a
    coroutine is rejected with [ValueError]. *)
Definition coroutine (v : pyval) : py_error + pyval :=
  match v with
  | PCoroutine r => inr r
  | _ => inl (ValueError "a coroutine was expected")
  end.

(** [def set_config(self)]: copy every instance attribute into [CONFIG],
    then set [CONFIG.application = self]. *)
Definition set_config (self_dict : attrs pyval) (config : attrs pyval) : attrs pyval :=
  setattr "application" PApplication
    (fold_left (fun c kv => setattr (fst kv) (snd kv) c) self_dict config).

(** [def __init__(self, adapter)]: returns [CONFIG] afterwards together
    with the exception raised or the instance's [__dict__].  Log calls
    are left out. *)
Definition init (adapter : Adapter) (config : attrs pyval)
  : attrs pyval * (py_error + attrs pyval) :=
  let d1 := setattr "adapter" (PAdapter adapter) [] in
  match coroutine (adapter_nick_name adapter) with
  | inl e => (config, inl e)
  | inr nick =>
      let d2 := setattr "nickname" nick d1 in
      let d3 := setattr "listener_manager" PListenerManager d2 in
      let d4 := setattr "adapter_utils" (PUtils (adapter_utils adapter)) d3 in
      let d5 := setattr "message_handler" (PMessageHandler (adapter_message_handler adapter)) d4 in
      let config' := set_config d5 config in
      let d6 := setattr "logger" (PLogger ("Application/" ++ VERSION)) d5 in
      match adapter_check adapter with
      | Some e => (config', inl e)
      | None => (config', inr d6)
      end
  end.

End Init.
End AppInit.

(** ** [MiraiAdapter.__init__] (src/adapters/mirai/adapter.py) *)

Module Mirai.
Import Attrs.

(** The fields of [MiraiConfig] that [__init__] reads. *)
Record mirai_config : Type := {
  ws_host : string;
  ws_port : Z;
  http_host : string;
  http_port : Z;
  session_key : string;
  ws_reverse : bool
}.

Inductive mval : Type :=
| MStr (s : string)
| MInt (z : Z)
| MBool (b : bool)
| MObj (cls : string).   (** an instance of the named class *)

(** The names bound at module level in adapter.py: its imports and its
    class.  Neither [MiraiUtils] nor [global_config] is among them, and
    neither is a builtin. *)
Definition module_globals : list string :=
  ["Adapter"; "ListenerManager"; "MiraiConfig"; "MiraiMessageHandler";
   "MiraiSenderHandler"; "Logger"; "HTTP_PROTOCOL"; "WS_PROTOCOL";
   "sync_get"; "MiraiAdapter"].

Definition lookup_global (name : string) : option py_error :=
  if existsb (String.eqb name) module_globals then None else Some (NameError name).

(** [def __init__(self, config)]: the instance's [__dict__] when the
    constructor stops, with the exception raised if any. *)
Definition init (config : mirai_config) : attrs mval * option py_error :=
  let d := setattr "name" (MStr "Mirai") [] in
  let d := setattr "ws_host" (MStr (ws_host config)) d in
  let d := setattr "ws_port" (MInt (ws_port config)) d in
  let d := setattr "http_host" (MStr (http_host config)) d in
  let d := setattr "http_port" (MInt (http_port config)) d in
  let d := setattr "session_key" (MStr (session_key config)) d in
  let d := setattr "ws_reverse" (MBool (ws_reverse config)) d in
  let d := setattr "logger" (MObj "Logger") d in
  let d := setattr "listener_manager" (MObj "ListenerManager") d in
  match lookup_global "MiraiUtils" with
  | Some e => (d, Some e)
  | None =>
      let d := setattr "utils" (MObj "MiraiUtils") d in
      let d := setattr "sender_handler" (MObj "MiraiSenderHandler") d in
      let d := setattr "message_handler" (MObj "MiraiMessageHandler") d in
      match lookup_global "global_config" with
      | Some e => (d, Some e)
      | None => (d, None)
      end
  end.

End Mirai.

(** * Properties *)

(** ** String concatenation *)

Lemma str_append_assoc (a b c : string) : a ++ (b ++ c) = (a ++ b) ++ c.
Proof. induction a as [| ch a IH]; simpl; [reflexivity | now rewrite IH]. Qed.

Lemma str_append_empty_r (a : string) : a ++ "" = a.
Proof. induction a as [| ch a IH]; simpl; [reflexivity | now rewrite IH]. Qed.

Lemma concat_cons_empty (x : string) (r : list string) :
  String.concat "" (x :: r) = x ++ String.concat "" r.
Proof.
  destruct r as [| y r]; simpl; [now rewrite str_append_empty_r | reflexivity].
Qed.

(** The [+=] loop of [__new__] computes the concatenation. *)
Lemma fold_append_concat (strings : list string) (acc : string) :
  fold_left (fun acc i => acc ++ i) strings acc = acc ++ String.concat "" strings.
Proof.
  revert acc; induction strings as [| x r IH]; intros acc; cbn [fold_left].
  - now rewrite str_append_empty_r.
  - rewrite IH, concat_cons_empty. apply eq_sym, str_append_assoc.
Qed.

Module MessageChainFacts.
Import MessageChain.
Section Facts.

Variable Element : Type.
Variable element_to_code : Element -> string.
Variable element_as_display : Element -> string.
Variable element_iter : Element -> option (list Element).

Local Abbreviation new := (MessageChain.new Element).
Local Abbreviation create := (MessageChain.create Element element_to_code element_iter).
Local Abbreviation to_code := (MessageChain.to_code Element).
Local Abbreviation as_display := (MessageChain.as_display Element element_as_display element_iter).
Local Abbreviation SeqList := (MessageChain.SeqList Element).

Example new_ab : snd (to_code MessageChainClass (fst (new ["a"; "b"] (initial Element)))) = inr "ab".
Proof. reflexivity. Qed.

Example new_nil : snd (to_code MessageChainClass (fst (new [] (initial Element)))) = inr "".
Proof. reflexivity. Qed.

(** C3: building a chain from strings [S] and calling [to_code] returns
    the concatenation of [S] in order ([""] for the empty sequence); the
    constructor returns the chain and [to_code] only reads the stored
    [_result], changing nothing. *)
Theorem new_to_code (st : cls_state Element) (S : list string) :
  snd (new S st) = inr MessageChainClass /\
  _result (fst (new S st)) = Some (String.concat "" S) /\
  to_code MessageChainClass (fst (new S st)) = (fst (new S st), inr (String.concat "" S)).
Proof.
  unfold MessageChain.new, MessageChain.to_code; simpl.
  rewrite fold_append_concat; simpl. auto.
Qed.

(** C2: [create(E)] stores [E] and then does exactly what building from
    the pre-rendered strings [[e.to_code() for e in E]] does; its [to_code]
    is the in-order concatenation of the elements' wire codes. *)
Theorem create_refines_new (st : cls_state Element) (E : list Element) :
  create (SeqList E) st = new (map element_to_code E) (set_elements Element (SeqList E) st) /\
  snd (to_code MessageChainClass (fst (create (SeqList E) st)))
  = inr (String.concat "" (map element_to_code E)).
Proof.
  split; [reflexivity |].
  unfold MessageChain.create, MessageChain.new, MessageChain.to_code, bind, get, put; simpl.
  now rewrite fold_append_concat.
Qed.

(** C7: right after [create(E)], [as_display] is the in-order
    concatenation of the elements' display renderings. *)
Theorem create_as_display (st : cls_state Element) (E : list Element) :
  snd (as_display MessageChainClass (fst (create (SeqList E) st)))
  = inr (String.concat "" (map element_as_display E)).
Proof. reflexivity. Qed.

(** C1: every constructor returns the same object, the class, and a
    later construction overwrites its state: after [new S1] then [new S2],
    the chain built first reports the wire code of [S2]. *)
Theorem later_chain_overwrites_earlier (st : cls_state Element) (S1 S2 : list string) :
  snd (new S1 st) = inr MessageChainClass /\
  snd (new S2 (fst (new S1 st))) = inr MessageChainClass /\
  snd (to_code MessageChainClass (fst (new S2 (fst (new S1 st)))))
  = inr (String.concat "" S2).
Proof.
  unfold MessageChain.new, MessageChain.to_code; simpl.
  now rewrite fold_append_concat.
Qed.

(** C4: building a chain from strings leaves [cls.elements] as the last
    [create] set it, so [as_display] on the new chain renders the elements
    of that earlier chain. *)
Theorem new_keeps_stale_display (st : cls_state Element) (e : Element) (S : list string) :
  snd (as_display MessageChainClass (fst (new S (fst (create (SeqList [e]) st)))))
  = inr (element_as_display e).
Proof.
  reflexivity.
Qed.

End Facts.
End MessageChainFacts.

Module BotFacts.
Import MessageChain ListenerManager Bot.
Section Registration.

Variable Element Target EventType Matcher ElementType PyType Role Float : Type.

Local Abbreviation world := (world Element Target EventType Matcher PyType Role Float).

Definition log_added (by_ : logger) (lv : level) (text : string) (w : world) : world :=
  Build_world (w_mc w) (w_log w ++ [{| log_by := by_; log_level := lv; log_text := text |}])
              (w_sent w) (w_joins w) (w_registry w).

(** C5: [on(event, p)] with an [int] priority [p <= 0] logs an error and
    returns [None]; applying that result to a handler raises [TypeError],
    before any listener is joined. *)
Theorem on_nonpositive_priority_crashes (ev : event_arg EventType) (p : Z) (h : handler)
    (w : world) (Hp : (p <= 0)%Z) :
  bind (on ev (PInt p)) (fun d => apply_decorator d h) w =
  (log_added AppLogger Error "cannot register listener: priority cannot be less than 0!" w,
   inl (TypeError "'NoneType' object is not callable")).
Proof.
  unfold on. case_eq (p >? 0)%Z; intro E; [apply Z.gtb_lt in E; lia | reflexivity].
Qed.

(** Joining each event type of a list in turn records one [join] call per
    element, in order, all for the same handler and priority. *)
Lemma py_for_join_trace (l : list EventType) (h : handler) (p : Z) (w : world) :
  snd (py_for (fun e => lm_join e h p) l w) = inr tt /\
  w_joins (fst (py_for (fun e => lm_join e h p) l w))
  = (w_joins w ++ map (fun e => (e, h, p)) l)%list.
Proof.
  revert w; induction l as [| e r IH]; intros w; simpl.
  - now rewrite app_nil_r.
  - unfold bind. simpl. destruct (IH (Build_world (w_mc w) (w_log w) (w_sent w)
        (w_joins w ++ [(e, h, p)])
        (fst (join EventType (value Matcher PyType Role Float)
                   (Listener EventType (value Matcher PyType Role Float) e h p)
                   (w_registry w))))) as [Hr Hj].
    unfold lm_join at 1. simpl.
    destruct (py_for _ r _) as [w' r'] eqn:E. simpl in *.
    split; [exact Hr |]. rewrite Hj, <- app_assoc. reflexivity.
Qed.

(** C9: for a list or tuple of at least two event types, an async
    handler and a priority [p > 0], applying [on(events, p)] joins the
    listener once per event type, in order, each time with priority [p]
    and the same handler, and returns the handler. *)
Theorem on_multi_event_joins_each (ev : event_arg EventType) (l : list EventType)
    (p : Z) (h : handler) (w : world)
    (Hev : ev = EvList l \/ ev = EvTuple l) (Hlen : 2 <= length l)
    (Hp : (0 < p)%Z) (Hasync : h_is_coroutine h = true) :
  snd (bind (on ev (PInt p)) (fun d => apply_decorator d h) w) = inr h /\
  w_joins (fst (bind (on ev (PInt p)) (fun d => apply_decorator d h) w))
  = (w_joins w ++ map (fun e => (e, h, p)) l)%list.
Proof.
  unfold on. replace (p >? 0)%Z with true by (symmetry; apply Z.gtb_lt; lia).
  change (bind (ret (Some (on_wrapper ev p))) (fun d => apply_decorator d h) w)
    with (on_wrapper ev p h w).
  assert (Hcase : match ev with EvList [e] => EvType e | _ => ev end = ev).
  { destruct Hev as [-> | ->]; [| reflexivity].
    destruct l as [| a [| b r]]; simpl in Hlen; [lia | lia | reflexivity]. }
  assert (Hrun : forall t,
    ((log AppLogger Info t ;; py_for (fun e => lm_join e h p) l) ;; ret h) w =
    let (w', r) := py_for (fun e => lm_join e h p) l (log_added AppLogger Info t w) in
    match r with inl e => (w', inl e) | inr _ => (w', inr h) end) by reflexivity.
  unfold on_wrapper. rewrite Hasync. cbv zeta. rewrite Hcase.
  destruct Hev as [-> | ->]; rewrite Hrun;
  destruct (py_for_join_trace l h p (log_added AppLogger Info "registered listener" w)) as [Hr Hj];
  destruct (py_for _ l _) as [w' r] eqn:E; simpl in *; subst r; split; auto.
Qed.

Variable CommandMatcher KeywordMatcher : list string -> bool -> list ElementType -> Matcher.

(** C6: applying any attachment decorator ([command], [keyword],
    [matcher], [param_convert], [role], [nlp]) to a function that no
    registered listener holds logs a warning, changes nothing else (no
    attachment, no join, nothing sent) and returns the function itself. *)
Theorem attachment_on_non_listener_reports
    (call : attachment_call Matcher ElementType PyType Role Float) (f : handler) (w : world)
    (Hnot : existsb (is_listener_of EventType (value Matcher PyType Role Float) f)
                    (w_registry w) = false) :
  exists text,
    attachment_decorator CommandMatcher KeywordMatcher call f w
    = (log_added AppLogger Warning text w, inr f).
Proof.
  destruct call; cbn [attachment_decorator];
  unfold command, keyword, matcher, param_convert, role, nlp, set_decorator, bind, lm_set, set;
  rewrite Hnot; eexists; reflexivity.
Qed.

End Registration.

Section Sending.

Variable Element Target EventType Matcher PyType Role Float : Type.
Variable element_to_code : Element -> string.
Variable element_iter : Element -> option (list Element).
Variable element_type_listed : Element -> bool.
Variable adapter_send : Target -> cls_state Element -> option exc.
Variable plain_class : option (string -> Element).

Local Abbreviation world := (world Element Target EventType Matcher PyType Role Float).
Local Abbreviation send_msg_body :=
  (Bot.send_msg_body Element element_to_code element_iter element_type_listed
     Target EventType Matcher PyType Role Float adapter_send plain_class).
Local Abbreviation send_msg :=
  (Bot.send_msg Element element_to_code element_iter element_type_listed
     Target EventType Matcher PyType Role Float adapter_send plain_class).

Ltac adapter_called st' :=
  unfold send; simpl;
  destruct (adapter_send _ st') eqn:Ha; right; exists st'; simpl; rewrite ?Ha; auto.

(** The body of [send_msg] calls the adapter at most once, as its last
    step: either nothing is sent, or one call is recorded and its outcome
    is the outcome of the body. *)
Lemma send_msg_body_shape (target : Target) (m : message Element) (w : world) :
  let (w1, r1) := send_msg_body target m w in
  w_sent w1 = w_sent w \/
  exists st, w_sent w1 = (w_sent w ++ [(target, st)])%list /\
             r1 = match adapter_send target st with Some e => inl e | None => inr tt end.
Proof.
  destruct m as [| s | e | l | l |]; cbn [Bot.send_msg_body];
  unfold bind, mc_create, mc_create_call, on_mc, error, log, raise.
  - left; reflexivity.
  - destruct plain_class as [plain |]; [| left; reflexivity].
    destruct (create _ _ _ _ _) as [st' [ex | c]]; [left; reflexivity |].
    adapter_called st'.
  - destruct (element_type_listed e); [| left; reflexivity].
    destruct (create _ _ _ _ _) as [st' [ex | c]]; [left; reflexivity |].
    adapter_called st'.
  - destruct (create_call _ _ _ _ _) as [st' [ex | c]]; [left; reflexivity |].
    adapter_called st'.
  - destruct (create_call _ _ _ _ _) as [st' [ex | c]]; [left; reflexivity |].
    adapter_called st'.
  - left; reflexivity.
Qed.

Definition send_error_entry (e : exc) : log_entry :=
  {| log_by := AdapterLogger; log_level := Error;
     log_text := "cannot send message: `" ++ exc_str e ++ "`" |}.

(** C8: when the call of [adapter.send_message] made by [send_msg] raises
    [e], [send_msg] logs the error on the adapter's logger and raises the
    same [e]. *)
Theorem send_msg_logs_and_reraises (target : Target) (m : message Element) (w w' : world)
    (r : exc + unit) (st : cls_state Element) (e : exc)
    (Hrun : send_msg target m w = (w', r))
    (Hcall : w_sent w' = (w_sent w ++ [(target, st)])%list)
    (Hraise : adapter_send target st = Some e) :
  r = inl e /\ exists pre, w_log w' = (pre ++ [send_error_entry e])%list.
Proof.
  pose proof (send_msg_body_shape target m w) as Hshape.
  unfold Bot.send_msg, try_reraise in Hrun. fold send_msg_body in Hrun.
  destruct (send_msg_body target m w) as [w1 r1].
  assert (Hsent : w_sent w' = w_sent w1 /\
                  (r1 = inr tt -> r = inr tt) /\
                  (forall ex, r1 = inl ex -> r = inl ex /\
                     w_log w' = (w_log w1 ++ [send_error_entry ex])%list)).
  { destruct r1 as [ex | []]; injection Hrun as <- <-; simpl;
    repeat split; intros; try discriminate; try reflexivity;
    match goal with H : inl _ = inl _ |- _ => injection H as <- end; reflexivity. }
  destruct Hsent as [Hs [Hok Hex]].
  destruct Hshape as [Hsame | [st' [Hone Hr1]]].
  - rewrite Hcall, Hsame in Hs.
    apply (f_equal (@length _)) in Hs. rewrite length_app in Hs. simpl in Hs. lia.
  - rewrite Hcall, Hone in Hs. apply app_inj_tail in Hs as [_ Hst].
    injection Hst as ->. rewrite Hraise in Hr1.
    destruct (Hex e Hr1) as [-> Hlog]. split; [reflexivity | eexists; exact Hlog].
Qed.

(** C10: a list or tuple of elements whose length is not 1 is unpacked
    into [MessageChain.create( *message)], which takes exactly one
    argument: [send_msg] logs the [TypeError] and raises it, and the
    adapter is never called. *)
Theorem send_msg_list_not_singleton_raises (target : Target) (m : message Element)
    (l : list Element) (w : world)
    (Hm : m = MsgList l \/ m = MsgTuple l) (Hlen : length l <> 1) :
  exists msg,
    send_msg target m w
    = (Build_world (w_mc w) (w_log w ++ [send_error_entry (TypeError msg)]) (w_sent w)
                   (w_joins w) (w_registry w),
       inl (TypeError msg)).
Proof.
  destruct l as [| a [| b r]]; [| simpl in Hlen; lia |];
  destruct Hm as [-> | ->]; eexists; reflexivity.
Qed.

End Sending.
End BotFacts.

(** ** The hypotheses of the theorems hold at concrete inputs *)

Module Witnesses.
Import MessageChain ListenerManager Bot.

Definition W : Type := Bot.world string unit nat unit unit unit unit.
Definition w0 : W := Build_world (initial string) [] [] [] [].
Definition h0 : handler := {| h_id := 1; h_is_coroutine := true |}.
Definition no_matcher (_ : list string) (_ : bool) (_ : list unit) : unit := tt.

(** A Mirai-like setup: elements are strings, [Plain] is the identity,
    and the adapter raises on every send. *)
Definition code_of (e : string) : string := e.
Definition iter_one (e : string) : option (list string) := Some [e].
Definition listed (_ : string) : bool := true.
Definition failing_adapter (_ : unit) (_ : cls_state string) : option exc := Some (Raised 1).
Definition plain : option (string -> string) := Some (fun s => s).

Lemma on_nonpositive_priority_crashes_witness :
  (0 <= 0)%Z /\
  bind (on (EvType 0%nat) (PInt 0)) (fun d => apply_decorator d h0) w0 =
  (BotFacts.log_added _ _ _ _ _ _ _ AppLogger Error
     "cannot register listener: priority cannot be less than 0!" w0,
   inl (TypeError "'NoneType' object is not callable")).
Proof.
  split; [lia |].
  apply (BotFacts.on_nonpositive_priority_crashes string unit nat unit unit unit unit); lia.
Defined.

Lemma on_multi_event_joins_each_witness :
  (EvList [1; 2]%nat = EvList [1; 2]%nat \/ EvList [1; 2]%nat = EvTuple [1; 2]%nat) /\
  2 <= length [1; 2]%nat /\ (0 < 3)%Z /\ h_is_coroutine h0 = true /\
  snd (bind (on (EvList [1; 2]%nat) (PInt 3)) (fun d => apply_decorator d h0) w0) = inr h0 /\
  w_joins (fst (bind (on (EvList [1; 2]%nat) (PInt 3)) (fun d => apply_decorator d h0) w0))
  = (w_joins w0 ++ map (fun e => (e, h0, 3%Z)) [1; 2]%nat)%list.
Proof.
  split; [left; reflexivity |]. split; [simpl; lia |]. split; [lia |]. split; [reflexivity |].
  apply (BotFacts.on_multi_event_joins_each string unit nat unit unit unit unit
           (EvList [1; 2]%nat) [1; 2]%nat 3%Z h0 w0); [left; reflexivity | simpl; lia | lia | reflexivity].
Defined.

Lemma attachment_on_non_listener_reports_witness :
  existsb (is_listener_of nat (value unit unit unit unit) h0) (w_registry w0) = false /\
  exists text,
    attachment_decorator no_matcher no_matcher (CallMatcher unit unit unit unit unit tt) h0 w0
    = (BotFacts.log_added _ _ _ _ _ _ _ AppLogger Warning text w0, inr h0).
Proof.
  split; [reflexivity |].
  apply (BotFacts.attachment_on_non_listener_reports string unit nat unit unit unit unit unit
           no_matcher no_matcher); reflexivity.
Defined.

Definition sent_state : cls_state string :=
  {| elements := Some (SeqElem string "hi"); _strings := Some ["hi"]; _result := Some "hi" |}.

Lemma send_msg_logs_and_reraises_witness :
  let run := Bot.send_msg string code_of iter_one listed unit nat unit unit unit unit
               failing_adapter plain tt (MsgStr "hi") w0 in
  run = (fst run, snd run) /\
  w_sent (fst run) = (w_sent w0 ++ [(tt, sent_state)])%list /\
  failing_adapter tt sent_state = Some (Raised 1) /\
  snd run = inl (Raised 1) /\
  exists pre, w_log (fst run) = (pre ++ [BotFacts.send_error_entry (Raised 1)])%list.
Proof.
  cbv zeta.
  split; [reflexivity |]. split; [reflexivity |]. split; [reflexivity |].
  apply (BotFacts.send_msg_logs_and_reraises string unit nat unit unit unit unit
           code_of iter_one listed failing_adapter plain tt (MsgStr "hi") w0 _ _ sent_state);
    reflexivity.
Defined.

Lemma send_msg_list_not_singleton_raises_witness :
  (MsgList ([] : list string) = MsgList [] \/ MsgList ([] : list string) = MsgTuple []) /\
  length ([] : list string) <> 1 /\
  exists msg,
    Bot.send_msg string code_of iter_one listed unit nat unit unit unit unit
      failing_adapter plain tt (MsgList []) w0
    = (Build_world (w_mc w0) (w_log w0 ++ [BotFacts.send_error_entry (TypeError msg)]) (w_sent w0)
                   (w_joins w0) (w_registry w0),
       inl (TypeError msg)).
Proof.
  split; [left; reflexivity |]. split; [simpl; lia |].
  apply (BotFacts.send_msg_list_not_singleton_raises string unit nat unit unit unit unit
           code_of iter_one listed failing_adapter plain tt (MsgList []) [] w0);
    [left; reflexivity | simpl; lia].
Defined.

End Witnesses.

(** * Further properties of the code *)

Module ChainEdgeFacts.
Import MessageChain.
Section Edges.

Variable Element : Type.
Variable element_to_code : Element -> string.
Variable element_as_display : Element -> string.
Variable element_iter : Element -> option (list Element).

Local Abbreviation new := (MessageChain.new Element).
Local Abbreviation create := (MessageChain.create Element element_to_code element_iter).
Local Abbreviation to_code := (MessageChain.to_code Element).
Local Abbreviation as_display := (MessageChain.as_display Element element_as_display element_iter).

(** Build one chain from strings per list of [hist], in order. *)
Definition build_all (hist : list (list string)) (st : cls_state Element) : cls_state Element :=
  fold_left (fun st S => fst (new S st)) hist st.

(** As long as [create] has never run, [as_display] raises
    [AttributeError], however many chains were built from strings. *)
Theorem strings_only_history_no_display (hist : list (list string)) :
  snd (as_display MessageChainClass (build_all hist (initial Element)))
  = inl (AttributeError "elements").
Proof.
  unfold build_all.
  assert (H : forall st, elements st = None ->
            elements (fold_left (fun st S => fst (new S st)) hist st) = None).
  { induction hist as [| S r IH]; intros st Hst; simpl; [exact Hst | apply IH; exact Hst]. }
  unfold MessageChain.as_display. rewrite (H (initial Element) eq_refl). reflexivity.
Qed.

(** [create(e)] on a single element that is not iterable raises
    [TypeError] after [cls.elements = e] has run: [_result] keeps the
    previous chain's code, and [as_display] now raises too. *)
Theorem create_non_iterable_partial_update (st : cls_state Element) (e : Element)
    (Hiter : element_iter e = None) :
  create (SeqElem Element e) st
  = (set_elements Element (SeqElem Element e) st, inl (TypeError "object is not iterable")) /\
  snd (to_code MessageChainClass (set_elements Element (SeqElem Element e) st))
  = snd (to_code MessageChainClass st) /\
  snd (as_display MessageChainClass (set_elements Element (SeqElem Element e) st))
  = inl (TypeError "object is not iterable").
Proof.
  unfold MessageChain.create, MessageChain.to_code, MessageChain.as_display,
         bind, get, put, raise; simpl. rewrite Hiter.
  destruct st as [el str res]; simpl; destruct res; auto.
Qed.

End Edges.
End ChainEdgeFacts.

Module RegistrationEdgeFacts.
Import MessageChain ListenerManager Bot.
Section Edges.

Variable Element Target EventType Matcher PyType Role Float : Type.

Local Abbreviation world := (world Element Target EventType Matcher PyType Role Float).
Local Abbreviation log_added := (BotFacts.log_added Element Target EventType Matcher PyType Role Float).
Local Abbreviation Value := (value Matcher PyType Role Float).

(** [on(event, priority)] with a priority that is not an [int] logs an
    error and returns the identity decorator: the handler comes back
    unchanged and nothing is joined. *)
Theorem on_non_int_priority_identity (ev : event_arg EventType) (h : handler) (w : world) :
  bind (on ev PNotInt) (fun d => apply_decorator d h) w
  = (log_added AppLogger Error "cannot register listener: wrong type of priority!" w, inr h).
Proof. reflexivity. Qed.

(** With a positive priority, a function that is not a coroutine
    function is returned unchanged after a warning, and nothing is joined. *)
Theorem on_non_async_ignored (ev : event_arg EventType) (p : Z) (h : handler) (w : world)
    (Hp : (0 < p)%Z) (Hsync : h_is_coroutine h = false) :
  bind (on ev (PInt p)) (fun d => apply_decorator d h) w
  = (log_added AppLogger Warning "cannot register listener: function ignored, it must be async!" w,
     inr h).
Proof.
  unfold on. replace (p >? 0)%Z with true by (symmetry; apply Z.gtb_lt; lia).
  unfold bind at 1, ret at 1, apply_decorator, on_wrapper. rewrite Hsync. reflexivity.
Qed.

(** A single event type is joined once; the registration message it logs
    is the one labelled as for multiple events. *)
Theorem on_single_event_joins_once (e : EventType) (p : Z) (h : handler) (w : world)
    (Hp : (0 < p)%Z) (Hasync : h_is_coroutine h = true) :
  bind (on (EvType e) (PInt p)) (fun d => apply_decorator d h) w
  = (Build_world (w_mc w)
       (w_log w ++ [{| log_by := AppLogger; log_level := Info;
                       log_text := "registered listener (multiple events)" |}])
       (w_sent w) (w_joins w ++ [(e, h, p)])
       (fst (join EventType Value (Listener EventType Value e h p) (w_registry w))),
     inr h).
Proof.
  unfold on. replace (p >? 0)%Z with true by (symmetry; apply Z.gtb_lt; lia).
  unfold bind at 1, ret at 1, apply_decorator, on_wrapper. rewrite Hasync. reflexivity.
Qed.

Lemma py_for_joins (l : list EventType) (h : handler) (p : Z) (w : world) :
  snd (py_for (fun e => lm_join e h p) l w) = inr tt /\
  w_joins (fst (py_for (fun e => lm_join e h p) l w))
  = (w_joins w ++ map (fun e => (e, h, p)) l)%list.
Proof.
  revert w; induction l as [| e r IH]; intros w; [simpl; now rewrite app_nil_r |].
  simpl. unfold bind. simpl.
  destruct (IH (Build_world (w_mc w) (w_log w) (w_sent w) (w_joins w ++ [(e, h, p)])
                  (fst (join EventType Value (Listener EventType Value e h p) (w_registry w)))))
    as [Hr Hj].
  unfold lm_join at 1. simpl.
  destruct (py_for _ r _) as [w' r'] eqn:E. simpl in *.
  split; [exact Hr |]. rewrite Hj, <- app_assoc. reflexivity.
Qed.

(** For a list or a tuple of any length (empty and singleton included),
    an async handler and a positive priority, [on] joins the handler once
    per element, in order, with that priority, and returns the handler. *)
Theorem on_list_joins_each_element (ev : event_arg EventType) (l : list EventType)
    (p : Z) (h : handler) (w : world)
    (Hev : ev = EvList l \/ ev = EvTuple l) (Hp : (0 < p)%Z) (Hasync : h_is_coroutine h = true) :
  snd (bind (on ev (PInt p)) (fun d => apply_decorator d h) w) = inr h /\
  w_joins (fst (bind (on ev (PInt p)) (fun d => apply_decorator d h) w))
  = (w_joins w ++ map (fun e => (e, h, p)) l)%list.
Proof.
  unfold on. replace (p >? 0)%Z with true by (symmetry; apply Z.gtb_lt; lia).
  change (bind (ret (Some (on_wrapper ev p))) (fun d => apply_decorator d h) w)
    with (on_wrapper ev p h w).
  unfold on_wrapper. rewrite Hasync. cbv zeta.
  assert (Hrun : forall t,
    ((log AppLogger Info t ;; py_for (fun e => lm_join e h p) l) ;; ret h) w =
    let (w', r) := py_for (fun e => lm_join e h p) l (log_added AppLogger Info t w) in
    match r with inl e => (w', inl e) | inr _ => (w', inr h) end) by reflexivity.
  destruct Hev as [-> | ->].
  - destruct l as [| a [| b r]].
    + split; [reflexivity | simpl; now rewrite app_nil_r].
    + split; reflexivity.
    + cbv iota. rewrite Hrun.
      destruct (py_for_joins (a :: b :: r) h p (log_added AppLogger Info "registered listener" w))
        as [Hr Hj].
      destruct (py_for _ (a :: b :: r) _) as [w' r'] eqn:E; simpl in *; subst r'; split; auto.
  - rewrite Hrun.
    destruct (py_for_joins l h p (log_added AppLogger Info "registered listener" w)) as [Hr Hj].
    destruct (py_for _ l _) as [w' r'] eqn:E; simpl in *; subst r'; split; auto.
Qed.

End Edges.
End RegistrationEdgeFacts.

Module SendEdgeFacts.
Import MessageChain ListenerManager Bot.
Section Edges.

Variable Element Target EventType Matcher PyType Role Float : Type.
Variable element_to_code : Element -> string.
Variable element_iter : Element -> option (list Element).
Variable element_type_listed : Element -> bool.
Variable adapter_send : Target -> cls_state Element -> option exc.
Variable plain_class : option (string -> Element).

Local Abbreviation world := (world Element Target EventType Matcher PyType Role Float).
Local Abbreviation log_added := (BotFacts.log_added Element Target EventType Matcher PyType Role Float).
Local Abbreviation send_msg :=
  (Bot.send_msg Element element_to_code element_iter element_type_listed
     Target EventType Matcher PyType Role Float adapter_send plain_class).

(** Sending a [str] when the adapter has no [Plain] element class: the
    lookup's [[0]] raises [IndexError], which is logged and re-raised;
    nothing reaches the adapter and no chain is built. *)
Theorem send_str_without_plain_raises (target : Target) (s : string) (w : world)
    (Hnone : plain_class = None) :
  send_msg target (MsgStr s) w
  = (log_added AdapterLogger Error "cannot send message: `list index out of range`" w,
     inl IndexError).
Proof. unfold Bot.send_msg, Bot.send_msg_body, try_reraise. rewrite Hnone. reflexivity. Qed.

(** A chain object (the [MessageChain] class, of type [type]), a value of
    an unsupported type, or an element whose class is not a direct
    subclass of [Element] is refused: [send_msg] logs the type warning and
    returns normally, with nothing sent and no state changed. *)
Theorem send_wrong_type_warns (target : Target) (m : message Element) (w : world)
    (Hm : m = MsgChainObj \/ m = MsgOther \/
          exists e, m = MsgElem e /\ element_type_listed e = false) :
  send_msg target m w
  = (log_added AdapterLogger Warning
       "cannot send message: parameter `message` has a wrong type!" w, inr tt).
Proof.
  destruct Hm as [-> | [-> | [e [-> He]]]]; try reflexivity.
  unfold Bot.send_msg, Bot.send_msg_body, try_reraise. rewrite He. reflexivity.
Qed.

(** A one-element list and a one-element tuple are sent identically,
    and, for an element whose class passes the type test, exactly as the
    element alone. *)
Theorem send_singleton_as_element (target : Target) (e : Element) (w : world)
    (Hl : element_type_listed e = true) :
  send_msg target (MsgList [e]) w = send_msg target (MsgTuple [e]) w /\
  send_msg target (MsgList [e]) w = send_msg target (MsgElem e) w.
Proof.
  split; [reflexivity |].
  unfold Bot.send_msg, Bot.send_msg_body. rewrite Hl. reflexivity.
Qed.

(** A string is sent as the one-element list of its [Plain] element. *)
Theorem send_str_as_plain_list (target : Target) (s : string) (plain : string -> Element)
    (w : world) (Hplain : plain_class = Some plain) :
  send_msg target (MsgStr s) w = send_msg target (MsgList [plain s]) w.
Proof. unfold Bot.send_msg, Bot.send_msg_body. rewrite Hplain. reflexivity. Qed.

(** The class state that [create(e)] leaves when iterating [e] yields [l]. *)
Definition created_state (e : Element) (l : list Element) : cls_state Element :=
  {| elements := Some (SeqElem Element e);
     _strings := Some (map element_to_code l);
     _result := Some (String.concat "" (map element_to_code l)) |}.

(** A successful send of an element: the adapter is called once with the
    chain [create(e)] built, whose wire code is the concatenation of the
    codes of the elements [e] iterates to; nothing is logged. *)
Theorem send_element_success (target : Target) (e : Element) (l : list Element) (w : world)
    (Hl : element_type_listed e = true) (Hiter : element_iter e = Some l)
    (Hok : adapter_send target (created_state e l) = None) :
  send_msg target (MsgElem e) w
  = (Build_world (created_state e l) (w_log w) (w_sent w ++ [(target, created_state e l)])
                 (w_joins w) (w_registry w),
     inr tt).
Proof.
  unfold Bot.send_msg, Bot.send_msg_body, try_reraise. rewrite Hl.
  unfold bind, mc_create, on_mc, MessageChain.create, bind, get, put. simpl.
  rewrite Hiter. unfold MessageChain.new. simpl. rewrite fold_append_concat. simpl.
  unfold send. simpl. fold (created_state e l). rewrite Hok. reflexivity.
Qed.

(** Sending an element that passes the type test but is not iterable:
    [create] stores it in [cls.elements], then raises [TypeError], which is
    logged and re-raised; the adapter is not called. *)
Theorem send_non_iterable_element_raises (target : Target) (e : Element) (w : world)
    (Hl : element_type_listed e = true) (Hiter : element_iter e = None) :
  send_msg target (MsgElem e) w
  = (log_added AdapterLogger Error "cannot send message: `object is not iterable`"
       (with_mc Element Target EventType Matcher PyType Role Float
          (set_elements Element (SeqElem Element e) (w_mc w)) w),
     inl (TypeError "object is not iterable")).
Proof.
  unfold Bot.send_msg, Bot.send_msg_body, try_reraise. rewrite Hl.
  unfold bind, mc_create, on_mc, MessageChain.create, bind, get, put, raise. simpl.
  rewrite Hiter. reflexivity.
Qed.

End Edges.
End SendEdgeFacts.

Module StartupFacts.
Import Attrs.

Section Lookup.
Variable V : Type.

Lemma getattr_setattr_same (k : string) (v : V) (d : attrs V) :
  getattr k (setattr k v d) = Some v.
Proof.
  induction d as [| [k' v'] r IH]; simpl; [now rewrite String.eqb_refl |].
  destruct (String.eqb k k') eqn:E; simpl; [now rewrite String.eqb_refl | now rewrite E].
Qed.

Lemma getattr_setattr_other (k k' : string) (v : V) (d : attrs V) :
  k <> k' -> getattr k (setattr k' v d) = getattr k d.
Proof.
  intros Hne. induction d as [| [k0 v0] r IH]; simpl.
  - apply String.eqb_neq in Hne. now rewrite Hne.
  - destruct (String.eqb k' k0) eqn:E; simpl.
    + apply String.eqb_eq in E; subst k0. apply String.eqb_neq in Hne. now rewrite Hne.
    + destruct (String.eqb k k0); [reflexivity | exact IH].
Qed.

Lemma getattr_not_key (k : string) (d : attrs V) :
  ~ In k (map fst d) -> getattr k d = None.
Proof.
  induction d as [| [k0 v0] r IH]; simpl; intros Hn; [reflexivity |].
  destruct (String.eqb k k0) eqn:E.
  - apply String.eqb_eq in E. exfalso; apply Hn; left; now symmetry.
  - apply IH. intros Hin; apply Hn; now right.
Qed.

(** Copying the attributes of [d] one by one over [c]: a key of [d] gets
    its value from [d], any other key keeps its value in [c]. *)
Lemma getattr_copy (d c : attrs V) (k : string) :
  NoDup (map fst d) ->
  getattr k (fold_left (fun c kv => setattr (fst kv) (snd kv) c) d c)
  = match getattr k d with Some v => Some v | None => getattr k c end.
Proof.
  revert c; induction d as [| [k1 v1] r IH]; intros c Hnd; simpl; [reflexivity |].
  inversion Hnd as [| ? ? Hnotin Hnd']; subst.
  rewrite IH by exact Hnd'.
  destruct (String.eqb k k1) eqn:E.
  - apply String.eqb_eq in E; subst k1.
    rewrite getattr_not_key by exact Hnotin. apply getattr_setattr_same.
  - destruct (getattr k r); [reflexivity |].
    apply getattr_setattr_other. now apply String.eqb_neq.
Qed.

End Lookup.

Section Config.
Import AppInit.

Variable Adapter Utils MessageHandler : Type.
Variable adapter_nick_name : Adapter -> pyval Adapter Utils MessageHandler.
Variable adapter_utils : Adapter -> Utils.
Variable adapter_message_handler : Adapter -> MessageHandler.
Variable adapter_check : Adapter -> option py_error.

Local Abbreviation pyval := (pyval Adapter Utils MessageHandler).
Local Abbreviation set_config := (AppInit.set_config Adapter Utils MessageHandler).
Local Abbreviation init :=
  (AppInit.init Adapter Utils MessageHandler adapter_nick_name adapter_utils
     adapter_message_handler adapter_check).

(** After [set_config], [CONFIG.application] is the application and every
    other attribute is the instance's if it has one, else unchanged. *)
Theorem set_config_lookup (d c : attrs pyval) (k : string)
    (Hnd : NoDup (map fst d)) (Hk : k <> "application") :
  getattr "application" (set_config d c) = Some (PApplication Adapter Utils MessageHandler) /\
  getattr k (set_config d c) = match getattr k d with Some v => Some v | None => getattr k c end.
Proof.
  unfold AppInit.set_config. split.
  - apply getattr_setattr_same.
  - rewrite getattr_setattr_other by exact Hk. now apply getattr_copy.
Qed.

(** [BotApplication(adapter)] whose [nick_name] is not a coroutine (e.g.
    [None], what [MiraiAdapter.nick_name] returns) raises [ValueError] in
    [asyncio.run] before [set_config]: [CONFIG] is untouched. *)
Theorem init_nick_not_coroutine_fails (a : Adapter) (c : attrs pyval)
    (Hnc : forall r, adapter_nick_name a <> PCoroutine Adapter Utils MessageHandler r) :
  init a c = (c, inl (ValueError "a coroutine was expected")).
Proof.
  unfold AppInit.init, coroutine.
  destruct (adapter_nick_name a) eqn:E; try reflexivity.
  exfalso; eapply Hnc; reflexivity.
Qed.

(** When the nickname coroutine returns [n], [__init__] leaves in [CONFIG]
    the adapter, the nickname [n], a fresh listener manager, the adapter's
    utils and message handler and the application, whether or not
    [adapter.check()] then raises.  [set_config] runs before
    [self.logger] is assigned, so [CONFIG.logger] is left as it was. *)
Theorem init_config_contents (a : Adapter) (n : pyval) (c : attrs pyval)
    (Hn : adapter_nick_name a = PCoroutine Adapter Utils MessageHandler n) :
  let cfg := fst (init a c) in
  getattr "adapter" cfg = Some (PAdapter Adapter Utils MessageHandler a) /\
  getattr "nickname" cfg = Some n /\
  getattr "listener_manager" cfg = Some (PListenerManager Adapter Utils MessageHandler) /\
  getattr "adapter_utils" cfg = Some (PUtils Adapter Utils MessageHandler (adapter_utils a)) /\
  getattr "message_handler" cfg
  = Some (PMessageHandler Adapter Utils MessageHandler (adapter_message_handler a)) /\
  getattr "application" cfg = Some (PApplication Adapter Utils MessageHandler) /\
  getattr "logger" cfg = getattr "logger" c.
Proof.
  cbv zeta. unfold AppInit.init, coroutine. rewrite Hn.
  destruct (adapter_check a); cbn [fst]; unfold AppInit.set_config; simpl setattr;
  repeat split;
    repeat first [ rewrite getattr_setattr_same; reflexivity
                 | rewrite getattr_setattr_other by discriminate ];
    reflexivity.
Qed.

End Config.


End StartupFacts.

(** ** The hypotheses of the further properties hold at concrete inputs *)

Module EdgeWitnesses.
Import MessageChain ListenerManager Bot Attrs AppInit Witnesses.

Definition no_iter (_ : string) : option (list string) := None.
Definition ok_adapter (_ : unit) (_ : cls_state string) : option exc := None.
Definition h1 : handler := {| h_id := 2; h_is_coroutine := false |}.
Definition VU : Type := value unit unit unit unit.

Lemma create_non_iterable_partial_update_witness :
  no_iter "x" = None /\
  MessageChain.create string code_of no_iter (SeqElem string "x") (initial string)
  = (set_elements string (SeqElem string "x") (initial string),
     inl (TypeError "object is not iterable")) /\
  snd (MessageChain.to_code string MessageChainClass
         (set_elements string (SeqElem string "x") (initial string)))
  = snd (MessageChain.to_code string MessageChainClass (initial string)) /\
  snd (MessageChain.as_display string code_of no_iter MessageChainClass
         (set_elements string (SeqElem string "x") (initial string)))
  = inl (TypeError "object is not iterable").
Proof.
  split; [reflexivity |].
  apply (ChainEdgeFacts.create_non_iterable_partial_update string code_of code_of no_iter).
  reflexivity.
Defined.

Lemma on_non_async_ignored_witness :
  (0 < 5)%Z /\ h_is_coroutine h1 = false /\
  bind (on (EvType 0%nat) (PInt 5)) (fun d => apply_decorator d h1) w0
  = (BotFacts.log_added _ _ _ _ _ _ _ AppLogger Warning
       "cannot register listener: function ignored, it must be async!" w0, inr h1).
Proof.
  split; [lia |]. split; [reflexivity |].
  apply (RegistrationEdgeFacts.on_non_async_ignored string unit nat unit unit unit unit);
    [lia | reflexivity].
Defined.

Lemma on_single_event_joins_once_witness :
  (0 < 5)%Z /\ h_is_coroutine h0 = true /\
  bind (on (EvType 0%nat) (PInt 5)) (fun d => apply_decorator d h0) w0
  = (Build_world (w_mc w0)
       (w_log w0 ++ [{| log_by := AppLogger; log_level := Info;
                        log_text := "registered listener (multiple events)" |}])
       (w_sent w0) (w_joins w0 ++ [(0%nat, h0, 5%Z)])
       (fst (join nat VU (Listener nat VU 0%nat h0 5) (w_registry w0))),
     inr h0).
Proof.
  split; [lia |]. split; [reflexivity |].
  apply (RegistrationEdgeFacts.on_single_event_joins_once string unit nat unit unit unit unit);
    [lia | reflexivity].
Defined.

Lemma on_list_joins_each_element_witness :
  (EvList [7%nat] = EvList [7%nat] \/ EvList [7%nat] = EvTuple [7%nat]) /\
  (0 < 5)%Z /\ h_is_coroutine h0 = true /\
  snd (bind (on (EvList [7%nat]) (PInt 5)) (fun d => apply_decorator d h0) w0) = inr h0 /\
  w_joins (fst (bind (on (EvList [7%nat]) (PInt 5)) (fun d => apply_decorator d h0) w0))
  = (w_joins w0 ++ map (fun e => (e, h0, 5%Z)) [7%nat])%list.
Proof.
  split; [left; reflexivity |]. split; [lia |]. split; [reflexivity |].
  apply (RegistrationEdgeFacts.on_list_joins_each_element string unit nat unit unit unit unit
           (EvList [7%nat]) [7%nat] 5%Z h0 w0); [left; reflexivity | lia | reflexivity].
Defined.

Lemma send_str_without_plain_raises_witness :
  (None : option (string -> string)) = None /\
  Bot.send_msg string code_of iter_one listed unit nat unit unit unit unit
    failing_adapter None tt (MsgStr "hi") w0
  = (BotFacts.log_added _ _ _ _ _ _ _ AdapterLogger Error
       "cannot send message: `list index out of range`" w0, inl IndexError).
Proof.
  split; [reflexivity |].
  apply (SendEdgeFacts.send_str_without_plain_raises string unit nat unit unit unit unit
           code_of iter_one listed failing_adapter None); reflexivity.
Defined.

Lemma send_wrong_type_warns_witness :
  ((MsgOther : message string) = MsgChainObj \/ (MsgOther : message string) = MsgOther \/
   exists e, (MsgOther : message string) = MsgElem e /\ listed e = false) /\
  Bot.send_msg string code_of iter_one listed unit nat unit unit unit unit
    failing_adapter plain tt MsgOther w0
  = (BotFacts.log_added _ _ _ _ _ _ _ AdapterLogger Warning
       "cannot send message: parameter `message` has a wrong type!" w0, inr tt).
Proof.
  split; [right; left; reflexivity |].
  apply (SendEdgeFacts.send_wrong_type_warns string unit nat unit unit unit unit
           code_of iter_one listed failing_adapter plain tt MsgOther w0).
  right; left; reflexivity.
Defined.

Lemma send_singleton_as_element_witness :
  listed "x" = true /\
  Bot.send_msg string code_of iter_one listed unit nat unit unit unit unit
    ok_adapter plain tt (MsgList ["x"]) w0
  = Bot.send_msg string code_of iter_one listed unit nat unit unit unit unit
    ok_adapter plain tt (MsgTuple ["x"]) w0 /\
  Bot.send_msg string code_of iter_one listed unit nat unit unit unit unit
    ok_adapter plain tt (MsgList ["x"]) w0
  = Bot.send_msg string code_of iter_one listed unit nat unit unit unit unit
    ok_adapter plain tt (MsgElem "x") w0.
Proof.
  split; [reflexivity |].
  apply (SendEdgeFacts.send_singleton_as_element string unit nat unit unit unit unit
           code_of iter_one listed ok_adapter plain); reflexivity.
Defined.

Lemma send_str_as_plain_list_witness :
  plain = Some (fun s => s) /\
  Bot.send_msg string code_of iter_one listed unit nat unit unit unit unit
    ok_adapter plain tt (MsgStr "hi") w0
  = Bot.send_msg string code_of iter_one listed unit nat unit unit unit unit
    ok_adapter plain tt (MsgList [(fun s => s) "hi"]) w0.
Proof.
  split; [reflexivity |].
  apply (SendEdgeFacts.send_str_as_plain_list string unit nat unit unit unit unit
           code_of iter_one listed ok_adapter plain tt "hi" (fun s => s) w0); reflexivity.
Defined.

Lemma send_element_success_witness :
  listed "x" = true /\ iter_one "x" = Some ["x"] /\
  ok_adapter tt (SendEdgeFacts.created_state string code_of "x" ["x"]) = None /\
  Bot.send_msg string code_of iter_one listed unit nat unit unit unit unit
    ok_adapter plain tt (MsgElem "x") w0
  = (Build_world (SendEdgeFacts.created_state string code_of "x" ["x"]) (w_log w0)
       (w_sent w0 ++ [(tt, SendEdgeFacts.created_state string code_of "x" ["x"])])
       (w_joins w0) (w_registry w0),
     inr tt).
Proof.
  split; [reflexivity |]. split; [reflexivity |]. split; [reflexivity |].
  apply (SendEdgeFacts.send_element_success string unit nat unit unit unit unit
           code_of iter_one listed ok_adapter plain tt "x" ["x"] w0); reflexivity.
Defined.

Lemma send_non_iterable_element_raises_witness :
  listed "x" = true /\ no_iter "x" = None /\
  Bot.send_msg string code_of no_iter listed unit nat unit unit unit unit
    ok_adapter plain tt (MsgElem "x") w0
  = (BotFacts.log_added _ _ _ _ _ _ _ AdapterLogger Error
       "cannot send message: `object is not iterable`"
       (with_mc string unit nat unit unit unit unit
          (set_elements string (SeqElem string "x") (w_mc w0)) w0),
     inl (TypeError "object is not iterable")).
Proof.
  split; [reflexivity |]. split; [reflexivity |].
  apply (SendEdgeFacts.send_non_iterable_element_raises string unit nat unit unit unit unit
           code_of no_iter listed ok_adapter plain tt "x" w0); reflexivity.
Defined.

Definition PV : Type := AppInit.pyval unit unit unit.
Definition self_dict : attrs PV := [("nickname", PStr unit unit unit "bot")].

Lemma set_config_lookup_witness :
  NoDup (map fst self_dict) /\ "nickname" <> "application" /\
  getattr "application" (AppInit.set_config unit unit unit self_dict [])
  = Some (PApplication unit unit unit) /\
  getattr "nickname" (AppInit.set_config unit unit unit self_dict [])
  = match getattr "nickname" self_dict with Some v => Some v | None => getattr "nickname" [] end.
Proof.
  assert (Hnd : NoDup (map fst self_dict)) by (repeat constructor; simpl; tauto).
  split; [exact Hnd |]. split; [discriminate |].
  apply (StartupFacts.set_config_lookup unit unit unit self_dict [] "nickname");
    [exact Hnd | discriminate].
Defined.

Definition nick_none (_ : unit) : PV := PNone unit unit unit.
Definition nick_coro (_ : unit) : PV := PCoroutine unit unit unit (PStr unit unit unit "bot").
Definition unit_of (_ : unit) : unit := tt.
Definition check_ok (_ : unit) : option py_error := None.

Lemma init_nick_not_coroutine_fails_witness :
  (forall r, nick_none tt <> PCoroutine unit unit unit r) /\
  AppInit.init unit unit unit nick_none unit_of unit_of check_ok tt []
  = ([], inl (ValueError "a coroutine was expected")).
Proof.
  assert (Hnc : forall r, nick_none tt <> PCoroutine unit unit unit r) by (intros r H; discriminate).
  split; [exact Hnc |].
  apply (StartupFacts.init_nick_not_coroutine_fails unit unit unit nick_none unit_of unit_of
           check_ok tt [] Hnc).
Defined.

Lemma init_config_contents_witness :
  nick_coro tt = PCoroutine unit unit unit (PStr unit unit unit "bot") /\
  let cfg := fst (AppInit.init unit unit unit nick_coro unit_of unit_of check_ok tt []) in
  getattr "adapter" cfg = Some (PAdapter unit unit unit tt) /\
  getattr "nickname" cfg = Some (PStr unit unit unit "bot") /\
  getattr "listener_manager" cfg = Some (PListenerManager unit unit unit) /\
  getattr "adapter_utils" cfg = Some (PUtils unit unit unit (unit_of tt)) /\
  getattr "message_handler" cfg = Some (PMessageHandler unit unit unit (unit_of tt)) /\
  getattr "application" cfg = Some (PApplication unit unit unit) /\
  getattr "logger" cfg = getattr "logger" [].
Proof.
  split; [reflexivity |].
  apply (StartupFacts.init_config_contents unit unit unit nick_coro unit_of unit_of check_ok
           tt (PStr unit unit unit "bot") []); reflexivity.
Defined.

End EdgeWitnesses.
